(** * pynsot command dispatch: [changes] and [interfaces]

    A shallow embedding of [pynsot/commands/cmd_changes.py] and
    [pynsot/commands/cmd_interfaces.py]: the display-field tables, the bodies
    of the click command functions, and the option callbacks they are wired
    to.  A command body is a computation that records every verb invoked on
    the API client ([ctx.obj]) and every line handed to [click.echo], and
    ends either normally or with a raised exception. *)

From Stdlib Require Import Ascii.
From stdpp Require Import gmap strings list sorting pretty.

Local Open Scope string_scope.
Local Open Scope Z_scope.
Local Open Scope list_scope.

(** ** Python values *)

(** The values click stores in [ctx.params] and passes to a command. *)
Inductive value : Type :=
| VNone
| VBool (b : bool)
| VInt (z : Z)
| VStr (s : string)
| VTuple (ss : list string)               (* a [multiple=True] option *)
| VDict (m : gmap string string)          (* attributes after their callback *)
| VRecords (rs : list (gmap string string)). (* rows read from a bulk file *)

(** [x is None]. *)
Definition is_None (v : value) : bool :=
  match v with VNone => true | _ => false end.

(** Truth value of an object, as [bool(x)] computes it: [None], [False],
    zero, and empty strings and containers are false. *)
Definition truthy (v : value) : bool :=
  match v with
  | VNone => false
  | VBool b => b
  | VInt z => negb (z =? 0)
  | VStr s => negb (String.eqb s EmptyString)
  | VTuple ss => match ss with [] => false | _ => true end
  | VDict m => negb (bool_decide (m = ∅))
  | VRecords rs => match rs with [] => false | _ => true end
  end.

(** [all(xs)]. *)
Definition all (xs : list value) : bool := forallb truthy xs.

(** ** Exceptions *)

Inductive exn : Type :=
| UsageError (msg : string)            (* click.UsageError *)
| KeyError (key : string)              (* dict.pop on a missing key *)
| TypeError (argument : string)        (* a call with a wrong keyword *)
| MissingRequiredOption (opt : string) (* raised by process_site_id *)
| InvalidFormat (token : string)       (* raised by transform_attributes *)
| ServerError (msg : string).          (* raised inside the API client *)

(** The error taxonomy: usage errors, transform errors, server errors; a
    [KeyError] or a [TypeError] is none of them. *)
Inductive error_class : Type := Usage | Transform | Server | Internal.

Definition classify (e : exn) : error_class :=
  match e with
  | UsageError _ => Usage
  | MissingRequiredOption _ => Usage
  | InvalidFormat _ => Transform
  | ServerError _ => Server
  | KeyError _ => Internal
  | TypeError _ => Internal
  end.

(** ** Display-field tables, payloads, and observable events *)

(** Ordered 2-tuples of (field, display_name). *)
Abbreviation fields := (list (string * string)).

(** What a verb receives as its first argument: [ctx.params] itself, or the
    value of an option ([bulk_add]). *)
Inductive payload : Type :=
| PParams (m : gmap string value)
| PValue (v : value).

Inductive event : Type :=
| CallList (data : gmap string value)
    (display_fields : fields) (verbose_fields : option fields)
| CallSetQuery (data : gmap string value)
| CallAdd (data : payload)
| Echo (message : string).

(** A verb method invoked on the API client, as opposed to terminal output. *)
Definition is_verb (e : event) : bool :=
  match e with Echo _ => false | _ => true end.

Definition verbs (t : list event) : list event := filter is_verb t.

(** ** Command computations *)

(** A trace of events, then an exception or a result. *)
Definition cmd (A : Type) : Type := list event * (exn + A).

Definition trace {A} (c : cmd A) : list event := c.1.
Definition outcome {A} (c : cmd A) : exn + A := c.2.

Definition cmd_ret {A} (a : A) : cmd A := ([], inr a).
Definition raise {A} (e : exn) : cmd A := ([], inl e).
Definition emit (e : event) : cmd () := ([e], inr ()).

Definition cmd_bind {A B} (k : A → cmd B) (c : cmd A) : cmd B :=
  match c with
  | (t, inl e) => (t, inl e)
  | (t, inr a) => let '(t', r) := k a in (t ++ t', r)
  end.

Global Instance cmd_mret : MRet cmd := @cmd_ret.
Global Instance cmd_mbind : MBind cmd := @cmd_bind.

(** A callback's verdict, lifted into a command: no event, same outcome. *)
Definition lift {A} (r : exn + A) : cmd A := ([], r).

(** ** The API client *)

(** [ctx.obj]: how each verb answers.  [None] stands for a normal return of
    a verb whose result the command does not use. *)
Record client (response : Type) : Type := Client {
  on_list : gmap string value → fields → option fields → option exn;
  on_set_query : gmap string value → exn + response;
  on_add : payload → option exn;
}.
Arguments Client {response}.
Arguments on_list {response}.
Arguments on_set_query {response}.
Arguments on_add {response}.

Record context (response : Type) : Type := Context {
  params : gmap string value;
  invoked_subcommand : option string;
  obj : client response;
}.
Arguments Context {response}.
Arguments params {response}.
Arguments invoked_subcommand {response}.
Arguments obj {response}.

Definition finish (r : option exn) : cmd () :=
  match r with Some e => raise e | None => mret () end.

(** [ctx.obj.list(data, display_fields=..., verbose_fields=...)] *)
Definition call_list {response} (api : client response)
    (data : gmap string value) (display_fields : fields)
    (verbose_fields : option fields) : cmd () :=
  emit (CallList data display_fields verbose_fields);;
  finish (on_list api data display_fields verbose_fields).

(** [ctx.obj.set_query(data)] *)
Definition call_set_query {response} (api : client response)
    (data : gmap string value) : cmd response :=
  emit (CallSetQuery data);;
  lift (on_set_query api data).

(** [ctx.obj.add(data)] *)
Definition call_add {response} (api : client response) (data : payload)
    : cmd () :=
  emit (CallAdd data);;
  finish (on_add api data).

(** [click.echo(message)] *)
Definition echo (message : string) : cmd () := emit (Echo message).

(** [d.pop(key)]: the dictionary without [key]; [KeyError] if it is absent. *)
Definition dict_pop (key : string) (d : gmap string value)
    : cmd (gmap string value) :=
  match d !! key with
  | Some _ => mret (delete key d)
  | None => raise (KeyError key)
  end.

(** ** Keyword calls *)

(** The values of the parameters [names], read from keyword arguments;
    [TypeError] on the first parameter that has none. *)
Fixpoint take_arguments (names : list string) (kwargs : gmap string value)
    : exn + list value :=
  match names with
  | [] => inr []
  | n :: rest =>
      match kwargs !! n with
      | None => inl (TypeError n)
      | Some v =>
          match take_arguments rest kwargs with
          | inl e => inl e
          | inr vs => inr (v :: vs)
          end
      end
  end.

(** [f(ctx, **kwargs)] for a function declared [def f(ctx, n1, ..., nk)]:
    a keyword that is no parameter of [f] is a [TypeError] (got an
    unexpected keyword argument), and so is a parameter left without a
    value; otherwise the parameters get their values. *)
Definition bind_keywords (names : list string) (kwargs : gmap string value)
    : exn + list value :=
  match filter (λ k, k ∉ names) (elements (dom kwargs)) with
  | k :: _ => inl (TypeError k)
  | [] => take_arguments names kwargs
  end.

(** ** String helpers *)

(** [sep.join(words)] *)
Definition join (sep : string) (words : list string) : string :=
  String.concat sep words.

(** [s.split(sep)] for a one-character separator: never empty, and the
    empty string splits into one empty word. *)
Fixpoint split_on (sep : ascii) (s : string) : list string :=
  match s with
  | EmptyString => [EmptyString]
  | String c s' =>
      if Ascii.eqb c sep then EmptyString :: split_on sep s'
      else match split_on sep s' with
           | w :: ws => String c w :: ws
           | [] => [String c EmptyString]
           end
  end.

(** Does the character occur in the string? *)
Fixpoint contains (c : ascii) (s : string) : bool :=
  match s with
  | EmptyString => false
  | String c' s' => Ascii.eqb c' c || contains c s'
  end.

(** Cut a string at the first occurrence of [c]; [None] if there is none. *)
Fixpoint cut_at (c : ascii) (s : string) : option (string * string) :=
  match s with
  | EmptyString => None
  | String c' s' =>
      if Ascii.eqb c' c then Some (EmptyString, s')
      else '(k, v) ← cut_at c s'; Some (String c' k, v)
  end.

Definition newline : string := String "010"%char EmptyString.
Definition dquote : string := String "034"%char EmptyString.

(** ** Option callbacks *)

Module callbacks.

(** Modelled from the spec: [callbacks.process_site_id] is not among the
    sources.  It fails with MissingRequiredOption if the value is absent
    when the target command requires a site scope; otherwise it passes the
    value through unchanged. *)
Definition process_site_id (requires_site : bool) (v : value) : exn + value :=
  if is_None v && requires_site then inl (MissingRequiredOption "site_id")
  else inr v.

(** The tokens of an attribute option: each given string, cut at commas. *)
Definition tokens (given : list string) : list string :=
  concat (split_on ","%char <$> given).

(** One step of the attribute transform: a token without [=] is rejected,
    any other is cut at its first [=] and stored under its key. *)
Definition add_token (attrs : exn + gmap string string) (token : string)
    : exn + gmap string string :=
  match attrs with
  | inl e => inl e
  | inr m =>
      match cut_at "="%char token with
      | None => inl (InvalidFormat token)
      | Some (k, v) => inr (<[k := v]> m)
      end
  end.

(** Modelled from the spec: [callbacks.transform_attributes] is not among
    the sources.  It accepts zero or more key=value strings (optionally
    comma-separated within one string), fails with InvalidFormat if a token
    lacks [=], and produces a mapping in which the last value wins on
    duplicate keys. *)
Definition transform_attributes (given : list string)
    : exn + gmap string string :=
  foldl add_token (inr ∅) (tokens given).

End callbacks.

(** ** [changes] *)

Module Changes.

Definition DISPLAY_FIELDS : fields :=
  [ ("id", "ID");
    ("change_at", "Change At");
    ("event", "Event");
    ("resource_name", "Resource");
    ("user", "User");
    ("resource_id", "Obj") ].

(** Fields to display when viewing a single record. *)
Definition VERBOSE_FIELDS : fields :=
  DISPLAY_FIELDS ++ [ ("resource", "Data") ].

(** The body of [list]. *)
Definition list_ {response} (ctx : context response)
    (event id limit offset resource_id resource_name site_id : value)
    : cmd () :=
  let data := params ctx in
  let display_fields :=
    if negb (is_None id) then VERBOSE_FIELDS else DISPLAY_FIELDS in
  call_list (obj ctx) data display_fields None.

(** The options of [changes list] as parsed from the command line, before
    their callbacks run; an option that was not given is [VNone]. *)
Record list_options : Type := ListOptions {
  opt_event : value;
  opt_id : value;
  opt_limit : value;
  opt_offset : value;
  opt_resource_id : value;
  opt_resource_name : value;
  opt_site_id : value;
}.

(** [changes list] is documented as needing a site: its docstring says so
    and the help of [--site-id] is marked [required]. *)
Definition requires_site : bool := true.

Section invocation.
Context {response : Type}.
(** The two callbacks that are neither among the sources nor described
    closely enough to be written down. *)
Variables transform_event transform_resource_name : value → exn + value.

(** What click does for [changes list]: run the callback of each option
    that has one, in the order of declaration, store the results in
    [ctx.params], then call the command with them. *)
Definition invoke_list (api : client response) (o : list_options) : cmd () :=
  event ← lift (transform_event (opt_event o));
  resource_name ← lift (transform_resource_name (opt_resource_name o));
  site_id ← lift (callbacks.process_site_id requires_site (opt_site_id o));
  let ctx_params : gmap string value :=
    {[ "event" := event; "id" := opt_id o; "limit" := opt_limit o;
       "offset" := opt_offset o; "resource_id" := opt_resource_id o;
       "resource_name" := resource_name; "site_id" := site_id ]} in
  list_ (Context ctx_params None api)
    event (opt_id o) (opt_limit o) (opt_offset o) (opt_resource_id o)
    resource_name site_id.

End invocation.

End Changes.

(** ** [interfaces] *)

Module Interfaces.

Definition DISPLAY_FIELDS : fields :=
  [ ("id", "ID");
    ("device", "Device");
    ("name", "Name");
    ("mac_address", "MAC");
    ("addresses", "Addresses");
    ("attributes", "Attributes") ].

(** Fields to display when viewing a single record. *)
Definition VERBOSE_FIELDS : fields :=
  [ ("id", "ID");
    ("device", "Device");
    ("name", "Name");
    ("mac_address", "MAC");
    ("addresses", "Addresses");
    ("speed", "Speed");
    ("type", "Type");
    ("parent_id", "Parent ID");
    ("attributes", "Attributes") ].

(** An Interface object as the server returns it, with the two fields the
    command reads: the ID of its device and its name. *)
Record interface : Type := Interface {
  i_device : Z;
  i_name : string;
}.

(** Order of the tuples [(device, name)]: by device, then by name. *)
Definition key_leb (a b : Z * string) : bool :=
  (a.1 <? b.1) || ((a.1 =? b.1) && String.leb a.2 b.2).

Definition key_le (a b : Z * string) : Prop := key_leb a b = true.

Global Instance key_le_dec : RelDecision key_le :=
  λ a b, decide (key_leb a b = true).

(** [sorted(...)] on such tuples. *)
Definition sorted (keys : list (Z * string)) : list (Z * string) :=
  merge_sort key_le keys.

(** ['%s:%s' % obj] *)
Definition composite_key (obj : Z * string) : string :=
  pretty obj.1 +:+ ":" +:+ obj.2.

Definition missing_name : string :=
  "Missing option " +:+ dquote +:+ "-n" +:+ dquote +:+ " / "
    +:+ dquote +:+ "--name" +:+ dquote.

(** The table the body of [list] binds to [display_fields]: if we provide ID,
    or both a device and a name, show more fields. *)
Definition select_fields (id device name : value) : fields :=
  if negb (is_None id) || all [device; name]
  then VERBOSE_FIELDS else DISPLAY_FIELDS.

Section commands.
Context {response : Type}.
(** [util.get_result]: the objects held in a response of the client. *)
Variable get_result : response → list interface.

(** The body of [add].  The option is declared as [--device] and the
    function names its parameter [device_id]; the body reads neither. *)
Definition add (ctx : context response)
    (attributes bulk_add device_id name : value) : cmd () :=
  let data :=
    if truthy bulk_add then PValue bulk_add else PParams (params ctx) in
  (if is_None bulk_add then
     if is_None name then raise (UsageError missing_name) else mret ()
   else mret ());;
  call_add (obj ctx) data.

(** The body of [list], run by click whether or not a sub-command follows.
    The dictionary left after [pop] is [ctx.params] itself. *)
Definition list_ (ctx : context response)
    (attributes delimited device description grep id limit name natural_key
     offset parent_id query site_id speed type : value) : cmd () :=
  data ← dict_pop "delimited" (params ctx);
  let display_fields := select_fields id device name in
  match invoked_subcommand ctx with
  | None =>
      if negb (is_None query) then
        results ← call_set_query (obj ctx) data;
        let interfaces := get_result results in
        let interfaces :=
          sorted ((λ i, (i_device i, i_name i)) <$> interfaces) in
        let interfaces := composite_key <$> interfaces in
        let joiner := if truthy delimited then "," else newline in
        echo (join joiner interfaces)
      else
        call_list (obj ctx) data display_fields (Some VERBOSE_FIELDS)
  | Some _ => mret ()
  end.

End commands.

(** [ctx.params] as click fills it for [interfaces list]: one entry for
    each declared option. *)
Definition list_params
    (attributes delimited device description grep id limit name natural_key
     offset parent_id query site_id speed type : value) : gmap string value :=
  list_to_map
    [ ("attributes", attributes); ("delimited", delimited);
      ("device", device); ("description", description); ("grep", grep);
      ("id", id); ("limit", limit); ("name", name);
      ("natural_key", natural_key); ("offset", offset);
      ("parent_id", parent_id); ("query", query); ("site_id", site_id);
      ("speed", speed); ("type", type) ].

(** The options of [interfaces list] as parsed from the command line. *)
Record list_options : Type := ListOptions {
  opt_attributes : value;
  opt_delimited : value;
  opt_device : value;
  opt_description : value;
  opt_grep : value;
  opt_id : value;
  opt_limit : value;
  opt_name : value;
  opt_natural_key : value;
  opt_offset : value;
  opt_parent_id : value;
  opt_query : value;
  opt_site_id : value;
  opt_speed : value;
  opt_type : value;
}.

(** [interfaces list] is documented as needing a site, like
    [changes list]. *)
Definition requires_site : bool := true.

(** Calling the body the way click does: [ctx.params] holds the value of
    each option, and the same values are the keyword arguments. *)
Definition call_list_body {response}
    (get_result : response → list interface) (api : client response)
    (sub : option string) (o : list_options) : cmd () :=
  list_ get_result
    (Context
       (list_params (opt_attributes o) (opt_delimited o) (opt_device o)
          (opt_description o) (opt_grep o) (opt_id o) (opt_limit o)
          (opt_name o) (opt_natural_key o) (opt_offset o) (opt_parent_id o)
          (opt_query o) (opt_site_id o) (opt_speed o) (opt_type o))
       sub api)
    (opt_attributes o) (opt_delimited o) (opt_device o) (opt_description o)
    (opt_grep o) (opt_id o) (opt_limit o) (opt_name o) (opt_natural_key o)
    (opt_offset o) (opt_parent_id o) (opt_query o) (opt_site_id o)
    (opt_speed o) (opt_type o).

Definition set_site_id (site_id : value) (o : list_options) : list_options :=
  let 'ListOptions a d dv de g i l n nk off p q _ sp t := o in
  ListOptions a d dv de g i l n nk off p q site_id sp t.

(** What click does for [interfaces list], with or without a sub-command:
    run the one callback, then call the body. *)
Definition invoke_list {response}
    (get_result : response → list interface) (api : client response)
    (sub : option string) (o : list_options) : cmd () :=
  site_id ← lift (callbacks.process_site_id requires_site (opt_site_id o));
  call_list_body get_result api sub (set_site_id site_id o).

(** [ctx.params] as click fills it for [interfaces add]. *)
Definition add_params (attributes bulk_add device name : value)
    : gmap string value :=
  {[ "attributes" := attributes; "bulk_add" := bulk_add;
     "device" := device; "name" := name ]}.

(** The query output as the specification words it: the composite keys
    sorted and de-duplicated, then joined.  Used only to compare with what
    [list_] echoes. *)
Definition deduplicated_output (delimited : value) (found : list interface)
    : string :=
  join (if truthy delimited then "," else newline)
    (composite_key <$>
       sorted (remove_dups ((λ i, (i_device i, i_name i)) <$> found))).

(** The parameters of [add] after [ctx], as its [def] names them. *)
Definition add_parameters : list string :=
  ["attributes"; "bulk_add"; "device_id"; "name"].

(** What click does for [interfaces add], once the callbacks have produced
    the values of the options: fill [ctx.params] under the names of the
    options ([--device] gives [device]) and call [add(ctx, **ctx.params)]. *)
Definition invoke_add {response} (api : client response)
    (attributes bulk_add device name : value) : cmd () :=
  let ctx := Context (add_params attributes bulk_add device name) None api in
  args ← lift (bind_keywords add_parameters (params ctx));
  match args with
  | [a; b; d; n] => add ctx a b d n
  | _ => raise (TypeError "add")
  end.

(** The parameters of [list] after [ctx]. *)
Definition list_parameters : list string :=
  ["attributes"; "delimited"; "device"; "description"; "grep"; "id";
   "limit"; "name"; "natural_key"; "offset"; "parent_id"; "query";
   "site_id"; "speed"; "type"].

End Interfaces.

(** ** Reading traces and attribute tokens *)

(** The dictionary a verb was given, when it was given one. *)
Definition event_data (e : event) : option (gmap string value) :=
  match e with
  | CallList data _ _ => Some data
  | CallSetQuery data => Some data
  | CallAdd (PParams data) => Some data
  | CallAdd (PValue _) => None
  | Echo _ => None
  end.

(** The key/value pairs written in a list of tokens, in order. *)
Definition pairs_of (toks : list string) : list (string * string) :=
  omap (cut_at "="%char) toks.

(** The value of the last pair whose key is [k]. *)
Fixpoint last_value (k : string) (pairs : list (string * string))
    : option string :=
  match pairs with
  | [] => None
  | (k', v) :: rest =>
      match last_value k rest with
      | Some v' => Some v'
      | None => if decide (k' = k) then Some v else None
      end
  end.

(** ** Sample clients and command lines *)

(** A client whose verbs all return normally and whose set query finds
    [found]. *)
Definition finding (found : list Interfaces.interface)
    : client (list Interfaces.interface) :=
  Client (λ _ _ _, None) (λ _, inr found) (λ _, None).

(** A client whose verbs all raise [e]. *)
Definition failing (e : exn) : client (list Interfaces.interface) :=
  Client (λ _ _ _, Some e) (λ _, inl e) (λ _, Some e).

(** [interfaces list --site-id 1] and nothing else. *)
Definition bare_list : Interfaces.list_options :=
  Interfaces.ListOptions (VTuple []) (VBool false) VNone VNone (VBool false)
    VNone VNone VNone (VBool false) VNone VNone VNone (VStr "1") VNone VNone.

Definition with_delimited (o : Interfaces.list_options)
    : Interfaces.list_options :=
  let 'Interfaces.ListOptions a _ dv de g i l n nk off p q s sp t := o in
  Interfaces.ListOptions a (VBool true) dv de g i l n nk off p q s sp t.

Definition with_device (z : Z) (o : Interfaces.list_options)
    : Interfaces.list_options :=
  let 'Interfaces.ListOptions a d _ de g i l n nk off p q s sp t := o in
  Interfaces.ListOptions a d (VInt z) de g i l n nk off p q s sp t.

Definition with_name (name : string) (o : Interfaces.list_options)
    : Interfaces.list_options :=
  let 'Interfaces.ListOptions a d dv de g i l _ nk off p q s sp t := o in
  Interfaces.ListOptions a d dv de g i l (VStr name) nk off p q s sp t.

Definition with_query (query : string) (o : Interfaces.list_options)
    : Interfaces.list_options :=
  let 'Interfaces.ListOptions a d dv de g i l n nk off p _ s sp t := o in
  Interfaces.ListOptions a d dv de g i l n nk off p (VStr query) s sp t.

(** [get_result] for a client that answers with the bare list of objects. *)
Definition as_is (found : list Interfaces.interface)
    : list Interfaces.interface := found.

(** [ctx.params] for such a command line. *)
Definition params_of (o : Interfaces.list_options) : gmap string value :=
  let 'Interfaces.ListOptions a d dv de g i l n nk off p q s sp t := o in
  Interfaces.list_params a d dv de g i l n nk off p q s sp t.

(** * Properties *)

(** ** Command computations *)

Lemma trace_bind {A B} (c : cmd A) (k : A → cmd B) :
  trace (c ≫= k) =
  trace c ++ match outcome c with inr a => trace (k a) | inl _ => [] end.
Proof.
  destruct c as [t [e|a]]; cbn; [by rewrite app_nil_r|].
  by destruct (k a).
Qed.

Lemma outcome_bind {A B} (c : cmd A) (k : A → cmd B) :
  outcome (c ≫= k) =
  match outcome c with inr a => outcome (k a) | inl e => inl e end.
Proof. destruct c as [t [e|a]]; cbn; [done|]. by destruct (k a). Qed.

Lemma bind_ret {A B} (a : A) (k : A → cmd B) : (mret a ≫= k) = k a.
Proof. cbn. by destruct (k a). Qed.

Lemma bind_raise {A B} (e : exn) (k : A → cmd B) : (raise e ≫= k) = raise e.
Proof. done. Qed.

Lemma bind_lift_ok {A B} (a : A) (k : A → cmd B) : (lift (inr a) ≫= k) = k a.
Proof. apply bind_ret. Qed.

Lemma bind_lift_err {A B} (e : exn) (k : A → cmd B) :
  (lift (inl e) ≫= k) = raise e.
Proof. done. Qed.

Lemma trace_call_list {response} (api : client response) data df vf :
  trace (call_list api data df vf) = [CallList data df vf].
Proof. unfold call_list. cbn. by destruct (on_list _ _ _ _). Qed.

Lemma trace_call_add {response} (api : client response) data :
  trace (call_add api data) = [CallAdd data].
Proof. unfold call_add. cbn. by destruct (on_add _ _). Qed.

Lemma dict_pop_present key d v :
  d !! key = Some v → dict_pop key d = ([], inr (delete key d)).
Proof. intros Hk. unfold dict_pop. by rewrite Hk. Qed.

Lemma dict_pop_absent key d :
  d !! key = None → dict_pop key d = ([], inl (KeyError key)).
Proof. intros Hk. unfold dict_pop. by rewrite Hk. Qed.

(** ** Display-field tables *)

Lemma changes_tables_differ :
  Changes.VERBOSE_FIELDS ≠ Changes.DISPLAY_FIELDS.
Proof. discriminate. Qed.

Lemma interfaces_tables_differ :
  Interfaces.VERBOSE_FIELDS ≠ Interfaces.DISPLAY_FIELDS.
Proof. discriminate. Qed.

(** C10: for changes and for interfaces, the summary table is a subsequence
    of the verbose table (same pairs, same relative order), and so every
    pair of the summary table occurs in the verbose table. *)
Theorem summary_fields_subsequence_of_verbose :
  (Changes.DISPLAY_FIELDS `sublist_of` Changes.VERBOSE_FIELDS
   ∧ Changes.DISPLAY_FIELDS ⊆ Changes.VERBOSE_FIELDS)
  ∧ (Interfaces.DISPLAY_FIELDS `sublist_of` Interfaces.VERBOSE_FIELDS
     ∧ Interfaces.DISPLAY_FIELDS ⊆ Interfaces.VERBOSE_FIELDS).
Proof.
  assert (Hc : Changes.DISPLAY_FIELDS `sublist_of` Changes.VERBOSE_FIELDS)
    by apply sublist_inserts_r, reflexivity.
  assert (Hi : Interfaces.DISPLAY_FIELDS
                 `sublist_of` Interfaces.VERBOSE_FIELDS).
  { unfold Interfaces.DISPLAY_FIELDS, Interfaces.VERBOSE_FIELDS.
    do 5 apply sublist_skip. do 3 apply sublist_cons.
    apply sublist_skip, sublist_nil. }
  split; (split; [done | by apply sublist_subseteq]).
Qed.

(** ** [changes list] *)

Lemma changes_list_trace {response} (ctx : context response)
    event id limit offset resource_id resource_name site_id :
  trace (Changes.list_ ctx event id limit offset resource_id resource_name
           site_id)
  = [CallList (params ctx)
       (if is_None id then Changes.DISPLAY_FIELDS
        else Changes.VERBOSE_FIELDS) None].
Proof.
  unfold Changes.list_. rewrite trace_call_list. by destruct (is_None id).
Qed.

(** ** [interfaces list] *)

Lemma select_fields_id_present id device name :
  is_None id = false →
  Interfaces.select_fields id device name = Interfaces.VERBOSE_FIELDS.
Proof. intros Hid. unfold Interfaces.select_fields. by rewrite Hid. Qed.

Lemma select_fields_id_absent device name :
  Interfaces.select_fields VNone device name
  = if truthy device && truthy name then Interfaces.VERBOSE_FIELDS
    else Interfaces.DISPLAY_FIELDS.
Proof.
  unfold Interfaces.select_fields, all. cbn.
  by rewrite andb_true_r.
Qed.

Section interfaces_list.
Context {response : Type} (get_result : response → list Interfaces.interface).
Context (ctx : context response).
Context (attributes delimited device description grep id limit name
         natural_key offset parent_id query site_id speed type : value).

Local Abbreviation run :=
  (Interfaces.list_ get_result ctx attributes delimited device description
     grep id limit name natural_key offset parent_id query site_id speed
     type).
Local Abbreviation data := (delete "delimited" (params ctx)).
Local Abbreviation joiner := (if truthy delimited then "," else newline).
Local Abbreviation keys_of results :=
  (Interfaces.sorted
     ((λ i, (Interfaces.i_device i, Interfaces.i_name i))
        <$> get_result results)).

(** Every run of the body, case by case. *)
Lemma interfaces_list_cases :
  run =
  match params ctx !! "delimited" with
  | None => ([], inl (KeyError "delimited"))
  | Some _ =>
      match invoked_subcommand ctx with
      | Some _ => ([], inr ())
      | None =>
          if is_None query then
            call_list (obj ctx) data
              (Interfaces.select_fields id device name)
              (Some Interfaces.VERBOSE_FIELDS)
          else
            match on_set_query (obj ctx) data with
            | inl e => ([CallSetQuery data], inl e)
            | inr results =>
                ([CallSetQuery data;
                  Echo (join joiner
                          (Interfaces.composite_key <$> keys_of results))],
                 inr ())
            end
      end
  end.
Proof.
  unfold Interfaces.list_, dict_pop.
  destruct (params ctx !! "delimited") as [v|]; [|done].
  rewrite bind_ret.
  destruct (invoked_subcommand ctx) as [sub|]; [done|].
  destruct (is_None query); [done|].
  unfold call_set_query. cbn.
  by destruct (on_set_query _ _) as [e|results].
Qed.

Lemma interfaces_list_trace :
  trace run =
  match params ctx !! "delimited", invoked_subcommand ctx with
  | Some _, None =>
      if is_None query then
        [CallList data (Interfaces.select_fields id device name)
           (Some Interfaces.VERBOSE_FIELDS)]
      else
        CallSetQuery data ::
        match on_set_query (obj ctx) data with
        | inl _ => []
        | inr results =>
            [Echo (join joiner
                     (Interfaces.composite_key <$> keys_of results))]
        end
  | _, _ => []
  end.
Proof.
  rewrite interfaces_list_cases.
  destruct (params ctx !! "delimited") as [v|]; [|done].
  destruct (invoked_subcommand ctx) as [sub|]; [done|].
  destruct (is_None query); [apply trace_call_list|].
  by destruct (on_set_query _ _).
Qed.

(** The table handed to the list verb is always the selected one. *)
Lemma interfaces_list_passes_selected d df vf :
  CallList d df vf ∈ trace run →
  df = Interfaces.select_fields id device name.
Proof.
  rewrite interfaces_list_trace.
  destruct (params ctx !! "delimited"); [|by intros ?%elem_of_nil].
  destruct (invoked_subcommand ctx); [by intros ?%elem_of_nil|].
  destruct (is_None query).
  - intros Hin%list_elem_of_singleton. congruence.
  - intros [Heq|Hin]%elem_of_cons; [discriminate|].
    destruct (on_set_query _ _).
    + by apply elem_of_nil in Hin.
    + apply list_elem_of_singleton in Hin. discriminate.
Qed.

(** C6: a run of the body with no sub-command invokes exactly one verb on
    the client: the set query when [query] is present, the listing when it
    is absent. *)
Theorem list_invokes_exactly_one_verb :
  is_Some (params ctx !! "delimited") →
  invoked_subcommand ctx = None →
  verbs (trace run) =
  [if is_None query
   then CallList data (Interfaces.select_fields id device name)
          (Some Interfaces.VERBOSE_FIELDS)
   else CallSetQuery data].
Proof.
  intros [v Hv] Hsub. rewrite interfaces_list_trace, Hv, Hsub.
  destruct (is_None query); [done|].
  by destruct (on_set_query _ _).
Qed.

(** C7: with [id] absent, a non-zero [device] and a non-empty [name], the
    verbose table is selected, it is the only table the list verb can be
    given, and a plain listing hands it over. *)
Theorem list_device_and_name_select_verbose (z : Z) (s : string) :
  id = VNone → device = VInt z → z ≠ 0 → name = VStr s → s ≠ EmptyString →
  Interfaces.select_fields id device name = Interfaces.VERBOSE_FIELDS
  ∧ (∀ d df vf, CallList d df vf ∈ trace run →
       df = Interfaces.VERBOSE_FIELDS)
  ∧ (is_Some (params ctx !! "delimited") →
     invoked_subcommand ctx = None → query = VNone →
     trace run = [CallList data Interfaces.VERBOSE_FIELDS
                    (Some Interfaces.VERBOSE_FIELDS)]).
Proof.
  intros Hid Hdevice Hz Hname Hs.
  assert (Hsel : Interfaces.select_fields id device name
                 = Interfaces.VERBOSE_FIELDS).
  { rewrite Hid, Hdevice, Hname, select_fields_id_absent. cbn.
    apply Z.eqb_neq in Hz. apply String.eqb_neq in Hs.
    by rewrite Hz, Hs. }
  split; [done|]. split.
  - intros d df vf Hin.
    by rewrite (interfaces_list_passes_selected _ _ _ Hin).
  - intros [v Hv] Hsub Hquery.
    by rewrite interfaces_list_trace, Hv, Hsub, Hsel, Hquery.
Qed.

(** C8: every verb the body invokes is given [ctx.params] with exactly the
    [delimited] entry removed; every other entry, [grep] and [natural_key]
    among them, is as click parsed it. *)
Theorem list_payload_drops_only_delimited (e : event) :
  e ∈ verbs (trace run) →
  event_data e = Some data
  ∧ data !! "delimited" = None
  ∧ (∀ k, k ≠ "delimited" → data !! k = params ctx !! k)
  ∧ data !! "grep" = params ctx !! "grep"
  ∧ data !! "natural_key" = params ctx !! "natural_key".
Proof.
  intros Hin.
  assert (Hdata : event_data e = Some data).
  { revert Hin. rewrite interfaces_list_trace.
    destruct (params ctx !! "delimited"); [|by intros ?%elem_of_nil].
    destruct (invoked_subcommand ctx); [by intros ?%elem_of_nil|].
    destruct (is_None query).
    - by intros ->%list_elem_of_singleton.
    - destruct (on_set_query _ _); by intros ->%list_elem_of_singleton. }
  split; [done|]. split; [apply lookup_delete_eq|].
  split; [by intros k Hk; apply lookup_delete_ne|].
  split; by apply lookup_delete_ne.
Qed.

End interfaces_list.

(** *** Concrete runs *)

Lemma bare_list_has_delimited (o : Interfaces.list_options) :
  is_Some (params_of o !! "delimited").
Proof.
  destruct o. exists opt_delimited. unfold params_of, Interfaces.list_params.
  cbn [list_to_map foldr fst snd uncurry].
  rewrite lookup_insert_ne by done. apply lookup_insert_eq.
Qed.

Lemma query_run_trace :
  trace (Interfaces.call_list_body as_is (finding []) None
           (with_query "foo=bar" bare_list))
  = [CallSetQuery
       (delete "delimited" (params_of (with_query "foo=bar" bare_list)));
     Echo EmptyString].
Proof. by vm_compute. Qed.

Lemma list_invokes_exactly_one_verb_witness :
  is_Some (params_of (with_query "foo=bar" bare_list) !! "delimited")
  ∧ verbs (trace (Interfaces.call_list_body as_is (finding []) None
                    (with_query "foo=bar" bare_list)))
    = [CallSetQuery
         (delete "delimited" (params_of (with_query "foo=bar" bare_list)))].
Proof.
  split; [apply bare_list_has_delimited|].
  apply (list_invokes_exactly_one_verb as_is
           (Context (params_of (with_query "foo=bar" bare_list)) None
              (finding []))).
  - apply bare_list_has_delimited.
  - reflexivity.
Defined.

Lemma list_device_and_name_select_verbose_witness :
  5 ≠ 0 ∧ "eth0" ≠ EmptyString
  ∧ Interfaces.select_fields VNone (VInt 5) (VStr "eth0")
    = Interfaces.VERBOSE_FIELDS
  ∧ trace (Interfaces.call_list_body as_is (finding []) None
             (with_name "eth0" (with_device 5 bare_list)))
    = [CallList
         (delete "delimited"
            (params_of (with_name "eth0" (with_device 5 bare_list))))
         Interfaces.VERBOSE_FIELDS (Some Interfaces.VERBOSE_FIELDS)].
Proof.
  assert (H5 : 5 ≠ 0) by lia.
  assert (He : "eth0" ≠ EmptyString) by discriminate.
  split; [done|]. split; [done|].
  destruct (list_device_and_name_select_verbose as_is
              (Context
                 (params_of (with_name "eth0" (with_device 5 bare_list)))
                 None (finding []))
              (VTuple []) (VBool false) (VInt 5) VNone (VBool false) VNone
              VNone (VStr "eth0") (VBool false) VNone VNone VNone (VStr "1")
              VNone VNone 5 "eth0" eq_refl eq_refl H5 eq_refl He)
    as (Hsel & _ & Hrun).
  split; [exact Hsel|].
  apply Hrun; [apply bare_list_has_delimited | reflexivity | reflexivity].
Defined.

Lemma list_payload_drops_only_delimited_witness :
  CallSetQuery
    (delete "delimited" (params_of (with_query "foo=bar" bare_list)))
  ∈ verbs (trace (Interfaces.call_list_body as_is (finding []) None
                    (with_query "foo=bar" bare_list)))
  ∧ delete "delimited" (params_of (with_query "foo=bar" bare_list))
      !! "grep" = Some (VBool false).
Proof.
  assert (Hin : CallSetQuery
    (delete "delimited" (params_of (with_query "foo=bar" bare_list)))
  ∈ verbs (trace (Interfaces.call_list_body as_is (finding []) None
                    (with_query "foo=bar" bare_list)))).
  { rewrite query_run_trace. by left. }
  split; [done|]. unfold Interfaces.call_list_body in Hin.
  destruct (list_payload_drops_only_delimited as_is _ _ _ _ _ _ _ _ _ _ _ _
              _ _ _ _ _ Hin) as (_ & _ & _ & Hgrep & _).
  etrans; [exact Hgrep|]. by vm_compute.
Defined.

(** ** Which table a listing shows *)

(** C1, as the code has it: [changes list] hands the list verb the verbose
    table when [id] is present and the summary table when it is absent.
    [interfaces list] hands the list verb, whenever it invokes it, the
    verbose table when [id] is present; when [id] is absent, the verbose
    table if [device] and [name] are both true values and the summary table
    otherwise. *)
Theorem list_fields_follow_id {response}
    (get_result : response → list Interfaces.interface)
    (cctx ictx : context response)
    (event cid climit coffset resource_id resource_name csite_id : value)
    (attributes delimited device description grep id limit name natural_key
     offset parent_id query site_id speed type : value) :
  trace (Changes.list_ cctx event cid climit coffset resource_id
           resource_name csite_id)
  = [CallList (params cctx)
       (if is_None cid then Changes.DISPLAY_FIELDS
        else Changes.VERBOSE_FIELDS) None]
  ∧ (∀ d df vf,
       CallList d df vf
       ∈ trace (Interfaces.list_ get_result ictx attributes delimited device
                  description grep id limit name natural_key offset
                  parent_id query site_id speed type) →
       df = if is_None id
            then if truthy device && truthy name
                 then Interfaces.VERBOSE_FIELDS
                 else Interfaces.DISPLAY_FIELDS
            else Interfaces.VERBOSE_FIELDS).
Proof.
  split; [apply changes_list_trace|].
  intros d df vf Hin.
  rewrite (interfaces_list_passes_selected _ _ _ _ _ _ _ _ _ _ _ _ _ _ _ _
             _ _ _ _ Hin).
  destruct id; try by apply select_fields_id_present.
  apply select_fields_id_absent.
Qed.

(** C1 fails for [interfaces list --device 5 --name eth0]: no [id], yet the
    list verb is handed the verbose table, which is not the summary one. *)
Lemma interfaces_list_without_id_is_verbose :
  Interfaces.opt_id (with_name "eth0" (with_device 5 bare_list)) = VNone
  ∧ trace (Interfaces.call_list_body as_is (finding []) None
             (with_name "eth0" (with_device 5 bare_list)))
    = [CallList
         (delete "delimited"
            (params_of (with_name "eth0" (with_device 5 bare_list))))
         Interfaces.VERBOSE_FIELDS (Some Interfaces.VERBOSE_FIELDS)]
  ∧ Interfaces.VERBOSE_FIELDS ≠ Interfaces.DISPLAY_FIELDS.
Proof.
  split; [done|]. split; [by vm_compute | discriminate].
Qed.

Lemma list_fields_follow_id_witness :
  CallList
    (delete "delimited"
       (params_of (with_name "eth0" (with_device 5 bare_list))))
    Interfaces.VERBOSE_FIELDS (Some Interfaces.VERBOSE_FIELDS)
  ∈ trace (Interfaces.call_list_body as_is (finding []) None
             (with_name "eth0" (with_device 5 bare_list)))
  ∧ Interfaces.VERBOSE_FIELDS
    = (if is_None VNone
       then if truthy (VInt 5) && truthy (VStr "eth0")
            then Interfaces.VERBOSE_FIELDS else Interfaces.DISPLAY_FIELDS
       else Interfaces.VERBOSE_FIELDS).
Proof.
  assert (Hin : CallList
    (delete "delimited"
       (params_of (with_name "eth0" (with_device 5 bare_list))))
    Interfaces.VERBOSE_FIELDS (Some Interfaces.VERBOSE_FIELDS)
  ∈ trace (Interfaces.call_list_body as_is (finding []) None
             (with_name "eth0" (with_device 5 bare_list)))).
  { replace (trace _) with
      [CallList
         (delete "delimited"
            (params_of (with_name "eth0" (with_device 5 bare_list))))
         Interfaces.VERBOSE_FIELDS (Some Interfaces.VERBOSE_FIELDS)]
      by (by vm_compute).
    by left. }
  split; [done|]. unfold Interfaces.call_list_body in Hin.
  exact (proj2 (list_fields_follow_id as_is
                  (Context ∅ None (finding [])) _
                  VNone VNone VNone VNone VNone VNone VNone
                  _ _ _ _ _ _ _ _ _ _ _ _ _ _ _) _ _ _ Hin).
Defined.

(** ** [interfaces add] *)

Section interfaces_add.
Context {response : Type} (ctx : context response).
Context (attributes device_id : value).

(** C3: with a bulk file that holds no record and no [name], the add verb
    is invoked, but with [ctx.params], not with the empty sequence. *)
Theorem add_empty_bulk_sends_params (name : value) :
  trace (Interfaces.add ctx attributes (VRecords []) device_id name)
  = [CallAdd (PParams (params ctx))]
  ∧ PParams (params ctx) ≠ PValue (VRecords []).
Proof.
  split; [|discriminate].
  unfold Interfaces.add. cbn [truthy is_None].
  rewrite bind_ret. apply trace_call_add.
Qed.

Lemma add_without_bulk_or_name :
  Interfaces.add ctx attributes VNone device_id VNone
  = raise (UsageError Interfaces.missing_name).
Proof. done. Qed.

Lemma add_with_records (rs : list (gmap string string)) (name : value) :
  rs ≠ [] →
  Interfaces.add ctx attributes (VRecords rs) device_id name
  = call_add (obj ctx) (PValue (VRecords rs)).
Proof.
  intros Hrs. unfold Interfaces.add. cbn [is_None].
  rewrite bind_ret. by destruct rs.
Qed.

(** The check on [name], for a direct call of the body: with no bulk file
    and no [name], the body raises a usage error and no verb has been
    invoked; with a bulk file that holds records, the missing [name] raises
    nothing: the run is the call of the add verb on those records, and ends
    as that call ends. *)
Theorem add_needs_name_unless_bulk (rs : list (gmap string string)) :
  rs ≠ [] →
  (Interfaces.add ctx attributes VNone device_id VNone
   = ([], inl (UsageError Interfaces.missing_name))
   ∧ classify (UsageError Interfaces.missing_name) = Usage)
  ∧ (Interfaces.add ctx attributes (VRecords rs) device_id VNone
     = call_add (obj ctx) (PValue (VRecords rs))
     ∧ trace (Interfaces.add ctx attributes (VRecords rs) device_id VNone)
       = [CallAdd (PValue (VRecords rs))]
     ∧ outcome (Interfaces.add ctx attributes (VRecords rs) device_id VNone)
       = match on_add (obj ctx) (PValue (VRecords rs)) with
         | Some e => inl e
         | None => inr ()
         end).
Proof.
  intros Hrs. split; [done|].
  rewrite add_with_records by done.
  split; [done|]. split; [apply trace_call_add|].
  unfold call_add. cbn. by destruct (on_add _ _).
Qed.

End interfaces_add.

(** ** The order of the query output *)

Lemma string_leb_trans (a b c : string) :
  String.leb a b = true → String.leb b c = true → String.leb a c = true.
Proof.
  unfold String.leb. revert b c.
  induction a as [|x a IH]; intros [|y b] [|z c]; cbn; try done.
  unfold Ascii.compare.
  destruct (N.compare_spec (N_of_ascii x) (N_of_ascii y)) as [Hxy|Hxy|Hxy],
    (N.compare_spec (N_of_ascii y) (N_of_ascii z)) as [Hyz|Hyz|Hyz],
    (N.compare_spec (N_of_ascii x) (N_of_ascii z)) as [Hxz|Hxz|Hxz];
    try done; try lia.
  apply IH.
Qed.

Global Instance key_le_total : Total Interfaces.key_le.
Proof.
  intros [d1 n1] [d2 n2]. unfold Interfaces.key_le, Interfaces.key_leb. cbn.
  destruct (Z.ltb_spec d1 d2); [by left|].
  destruct (Z.ltb_spec d2 d1); [by right|].
  replace d2 with d1 by lia. rewrite Z.eqb_refl. cbn.
  apply String.leb_total.
Qed.

Global Instance key_le_trans : Transitive Interfaces.key_le.
Proof.
  intros [d1 n1] [d2 n2] [d3 n3].
  unfold Interfaces.key_le, Interfaces.key_leb. cbn.
  intros [H12|[H12 L12]%andb_prop]%orb_prop [H23|[H23 L23]%andb_prop]%orb_prop;
    apply orb_true_iff;
    rewrite ?Z.ltb_lt, ?Z.eqb_eq in *; try (left; apply Z.ltb_lt; lia).
  right. apply andb_true_iff. split; [apply Z.eqb_eq; lia|].
  by eapply string_leb_trans.
Qed.

Global Instance key_le_antisymm : AntiSymm (=) Interfaces.key_le.
Proof.
  intros [d1 n1] [d2 n2].
  unfold Interfaces.key_le, Interfaces.key_leb. cbn.
  intros [H12|[H12 L12]%andb_prop]%orb_prop [H21|[H21 L21]%andb_prop]%orb_prop;
    rewrite ?Z.ltb_lt, ?Z.eqb_eq in *; try lia.
  f_equal; [done|]. by apply String.leb_antisym.
Qed.

(** [sorted] returns the one ordered arrangement of its argument, so that
    it stands for Python's own sort whatever algorithm that runs. *)
Lemma sorted_spec (keys : list (Z * string)) :
  Sorted Interfaces.key_le (Interfaces.sorted keys)
  ∧ Interfaces.sorted keys ≡ₚ keys
  ∧ ∀ other, Sorted Interfaces.key_le other → other ≡ₚ keys →
             other = Interfaces.sorted keys.
Proof.
  split; [apply (Sorted_merge_sort _)|].
  split; [apply merge_sort_Permutation|].
  intros other Hsorted Hperm.
  apply (Sorted_unique Interfaces.key_le); [done| |].
  - apply (Sorted_merge_sort _).
  - rewrite Hperm. symmetry. apply merge_sort_Permutation.
Qed.

Section interfaces_query.
Context {response : Type} (get_result : response → list Interfaces.interface).
Context (ctx : context response).
Context (attributes delimited device description grep id limit name
         natural_key offset parent_id query site_id speed type : value).

(** C2, as the code has it: a run with a [query] and no sub-command, whose
    set query returns, echoes one composite key for each object returned,
    duplicates included, in the order of the pairs (device, name), joined
    by commas when [delimited] is set and by newlines otherwise. *)
Theorem list_query_output (results : response) :
  is_Some (params ctx !! "delimited") →
  invoked_subcommand ctx = None →
  is_None query = false →
  on_set_query (obj ctx) (delete "delimited" (params ctx)) = inr results →
  ∃ keys : list (Z * string),
    Interfaces.list_ get_result ctx attributes delimited device description
      grep id limit name natural_key offset parent_id query site_id speed
      type
    = ([CallSetQuery (delete "delimited" (params ctx));
        Echo (join (if truthy delimited then "," else newline)
                (Interfaces.composite_key <$> keys))],
       inr ())
    ∧ Sorted Interfaces.key_le keys
    ∧ keys ≡ₚ (λ i, (Interfaces.i_device i, Interfaces.i_name i))
                <$> get_result results
    ∧ length keys = length (get_result results).
Proof.
  intros [v Hv] Hsub Hquery Hanswer.
  eexists. rewrite interfaces_list_cases, Hv, Hsub, Hquery, Hanswer.
  split; [reflexivity|].
  destruct (sorted_spec ((λ i, (Interfaces.i_device i, Interfaces.i_name i))
                           <$> get_result results)) as (Hs & Hp & _).
  split; [done|]. split; [done|].
  by rewrite Hp, length_fmap.
Qed.

End interfaces_query.

(** C2 fails when the set query returns the same interface twice: both
    copies are echoed, where the de-duplicated output has one. *)
Lemma list_query_keeps_duplicates :
  trace (Interfaces.call_list_body as_is
           (finding [Interfaces.Interface 1 "eth0";
                     Interfaces.Interface 1 "eth0"])
           None (with_delimited (with_query "foo=bar" bare_list)))
  = [CallSetQuery
       (delete "delimited"
          (params_of (with_delimited (with_query "foo=bar" bare_list))));
     Echo "1:eth0,1:eth0"]
  ∧ Interfaces.deduplicated_output (VBool true)
      [Interfaces.Interface 1 "eth0"; Interfaces.Interface 1 "eth0"]
    = "1:eth0"
  ∧ "1:eth0,1:eth0" ≠ "1:eth0".
Proof. split; [by vm_compute|]. split; [by vm_compute | discriminate]. Qed.

Lemma list_query_output_witness :
  ∃ keys : list (Z * string),
    Interfaces.call_list_body as_is
      (finding [Interfaces.Interface 10 "eth0"; Interfaces.Interface 9 "eth1"])
      None (with_query "foo=bar" bare_list)
    = ([CallSetQuery
          (delete "delimited" (params_of (with_query "foo=bar" bare_list)));
        Echo (join newline (Interfaces.composite_key <$> keys))],
       inr ())
    ∧ Sorted Interfaces.key_le keys
    ∧ keys ≡ₚ [(10, "eth0"); (9, "eth1")]
    ∧ length keys = 2%nat.
Proof.
  apply (list_query_output as_is
           (Context (params_of (with_query "foo=bar" bare_list)) None
              (finding [Interfaces.Interface 10 "eth0";
                        Interfaces.Interface 9 "eth1"]))
           (VTuple []) (VBool false) VNone VNone (VBool false) VNone VNone
           VNone (VBool false) VNone VNone (VStr "foo=bar") (VStr "1") VNone
           VNone
           [Interfaces.Interface 10 "eth0"; Interfaces.Interface 9 "eth1"]).
  - apply bare_list_has_delimited.
  - reflexivity.
  - reflexivity.
  - reflexivity.
Defined.

Lemma add_needs_name_unless_bulk_witness :
  [({[ "device" := "1"; "name" := "eth0" ]} : gmap string string)] ≠ []
  ∧ trace (Interfaces.add
             (Context
                (Interfaces.add_params (VDict ∅)
                   (VRecords [{[ "device" := "1"; "name" := "eth0" ]}])
                   VNone VNone)
                None (finding []))
             (VDict ∅) (VRecords [{[ "device" := "1"; "name" := "eth0" ]}])
             VNone VNone)
    = [CallAdd (PValue (VRecords [{[ "device" := "1"; "name" := "eth0" ]}]))].
Proof.
  assert (Hrs : [({[ "device" := "1"; "name" := "eth0" ]}
                   : gmap string string)] ≠ []) by discriminate.
  split; [exact Hrs|].
  exact (proj1 (proj2 (proj2 (add_needs_name_unless_bulk
                                (Context
                                   (Interfaces.add_params (VDict ∅)
                                      (VRecords
                                         [{[ "device" := "1";
                                             "name" := "eth0" ]}])
                                      VNone VNone)
                                   None (finding []))
                                (VDict ∅) VNone _ Hrs)))).
Defined.

(** ** [changes list] and its site *)

Lemma process_site_id_absent :
  callbacks.process_site_id true VNone = inl (MissingRequiredOption "site_id").
Proof. done. Qed.

Lemma process_site_id_present (v : value) :
  is_None v = false → callbacks.process_site_id true v = inr v.
Proof. intros Hv. unfold callbacks.process_site_id. by rewrite Hv. Qed.

Section changes_invocation.
Context {response : Type}.
Context (transform_event transform_resource_name : value → exn + value).
Context (api : client response) (o : Changes.list_options).

(** C4: without [--site-id] the invocation ends with an exception and has
    invoked no verb of the client; the exception is the missing-option
    usage error unless an earlier callback has already raised its own. *)
Theorem changes_list_needs_site_id :
  Changes.opt_site_id o = VNone →
  Changes.invoke_list transform_event transform_resource_name api o
  = ([], inl match transform_event (Changes.opt_event o) with
             | inl e => e
             | inr _ =>
                 match transform_resource_name (Changes.opt_resource_name o)
                 with
                 | inl e => e
                 | inr _ => MissingRequiredOption "site_id"
                 end
             end)
  ∧ classify (MissingRequiredOption "site_id") = Usage.
Proof.
  intros Hsite. split; [|done].
  unfold Changes.invoke_list. rewrite Hsite.
  destruct (transform_event _) as [e|ev]; [done|]. rewrite bind_lift_ok.
  destruct (transform_resource_name _) as [e|rn]; [done|].
  rewrite bind_lift_ok. done.
Qed.

(** With a site and callbacks that accept their values, the same
    invocation does reach the list verb. *)
Lemma changes_list_with_site_id ev rn :
  is_None (Changes.opt_site_id o) = false →
  transform_event (Changes.opt_event o) = inr ev →
  transform_resource_name (Changes.opt_resource_name o) = inr rn →
  ∃ data,
    trace (Changes.invoke_list transform_event transform_resource_name api o)
    = [CallList data
         (if is_None (Changes.opt_id o) then Changes.DISPLAY_FIELDS
          else Changes.VERBOSE_FIELDS) None].
Proof.
  intros Hsite Hev Hrn. eexists.
  unfold Changes.invoke_list.
  rewrite Hev, Hrn, process_site_id_present by done.
  rewrite !bind_lift_ok. apply changes_list_trace.
Qed.

End changes_invocation.

Lemma changes_list_needs_site_id_witness :
  Changes.invoke_list inr inr (finding [])
    (Changes.ListOptions VNone (VStr "7") VNone VNone VNone VNone VNone)
  = ([], inl (MissingRequiredOption "site_id")).
Proof.
  exact (proj1 (changes_list_needs_site_id inr inr (finding [])
                  (Changes.ListOptions VNone (VStr "7") VNone VNone VNone
                     VNone VNone) eq_refl)).
Defined.

(** ** The attribute transform *)

Lemma cut_at_None (c : ascii) (s : string) :
  cut_at c s = None ↔ contains c s = false.
Proof.
  induction s as [|c' s IH]; cbn; [done|].
  destruct (Ascii.eqb c' c); cbn; [done|].
  rewrite <- IH. destruct (cut_at c s) as [[k v]|]; by cbn.
Qed.

Lemma cut_at_Some (c : ascii) (s k v : string) :
  cut_at c s = Some (k, v) →
  s = k +:+ String c v ∧ contains c k = false.
Proof.
  revert k. induction s as [|c' s IH]; intros k; cbn; [done|].
  destruct (Ascii.eqb_spec c' c) as [->|Hne].
  - by intros [= <- <-].
  - destruct (cut_at c s) as [[k' v']|]; cbn; [|done].
    intros [= <- <-]. destruct (IH k' eq_refl) as [-> Hk'].
    split; [done|]. cbn. rewrite Hk'.
    by destruct (Ascii.eqb_spec c' c).
Qed.

Lemma cut_at_contains (c : ascii) (s : string) :
  contains c s = true → is_Some (cut_at c s).
Proof.
  intros Hs. destruct (cut_at c s) eqn:Hcut; [done|].
  apply cut_at_None in Hcut. congruence.
Qed.

Lemma add_tokens_raised (e : exn) (toks : list string) :
  foldl callbacks.add_token (inl e) toks = inl e.
Proof. by induction toks. Qed.

Lemma add_tokens_accepted (toks : list string) :
  ∀ m : gmap string string,
  Forall (λ tok, contains "="%char tok = true) toks →
  ∃ m', foldl callbacks.add_token (inr m) toks = inr m'
        ∧ ∀ k, m' !! k = match last_value k (pairs_of toks) with
                         | Some v => Some v
                         | None => m !! k
                         end.
Proof.
  induction toks as [|tok toks IH]; intros m Hall.
  - by exists m.
  - apply Forall_cons in Hall as [Htok Hall].
    destruct (cut_at_contains _ _ Htok) as [[k0 v0] Hcut].
    destruct (IH (<[k0 := v0]> m) Hall) as (m' & Hrun & Hm').
    exists m'. cbn. unfold pairs_of in *. cbn. rewrite Hcut. cbn.
    split; [done|]. intros k. rewrite Hm'.
    destruct (last_value k _); [done|].
    destruct (decide (k0 = k)) as [->|Hne].
    + apply lookup_insert_eq.
    + by apply lookup_insert_ne.
Qed.

Lemma add_tokens_rejected (toks : list string) :
  ∀ (m : gmap string string) (tok : string),
  tok ∈ toks → contains "="%char tok = false →
  ∃ bad, foldl callbacks.add_token (inr m) toks = inl (InvalidFormat bad)
         ∧ bad ∈ toks ∧ contains "="%char bad = false.
Proof.
  induction toks as [|t toks IH]; intros m tok Hin Htok.
  - by apply elem_of_nil in Hin.
  - cbn. destruct (cut_at "="%char t) as [[k0 v0]|] eqn:Hcut.
    + apply elem_of_cons in Hin as [->|Hin].
      * apply cut_at_None in Htok. congruence.
      * destruct (IH (<[k0 := v0]> m) tok Hin Htok) as (bad & Hrun & Hbad & Hc).
        exists bad. split; [done|]. split; [by right | done].
    + exists t. rewrite add_tokens_raised.
      split; [done|]. split; [by left | by apply cut_at_None].
Qed.

Lemma pairs_of_spell_tokens (toks : list string) :
  Forall (λ tok, contains "="%char tok = true) toks →
  Forall2 (λ tok p, tok = p.1 +:+ String "="%char p.2
                    ∧ contains "="%char p.1 = false)
    toks (pairs_of toks).
Proof.
  induction 1 as [|tok toks Htok Hall IH]; [constructor|].
  destruct (cut_at_contains _ _ Htok) as [[k0 v0] Hcut].
  unfold pairs_of in *. cbn. rewrite Hcut. cbn.
  constructor; [by apply cut_at_Some | done].
Qed.

(** C9: if some token has no [=], the transform raises InvalidFormat, a
    transform error, on such a token; being a callback it has then invoked
    nothing.  If every token has one, it returns a mapping that holds, for
    each key, the value of the last pair written with that key, where the
    pairs are the tokens cut at their first [=]. *)
Theorem transform_attributes_spec (given : list string) :
  (∀ tok, tok ∈ callbacks.tokens given → contains "="%char tok = false →
     ∃ bad,
       callbacks.transform_attributes given = inl (InvalidFormat bad)
       ∧ bad ∈ callbacks.tokens given
       ∧ contains "="%char bad = false
       ∧ classify (InvalidFormat bad) = Transform
       ∧ trace (lift (callbacks.transform_attributes given)) = [])
  ∧ (Forall (λ tok, contains "="%char tok = true) (callbacks.tokens given) →
     ∃ m,
       callbacks.transform_attributes given = inr m
       ∧ (∀ k, m !! k = last_value k (pairs_of (callbacks.tokens given)))
       ∧ Forall2 (λ tok p, tok = p.1 +:+ String "="%char p.2
                           ∧ contains "="%char p.1 = false)
           (callbacks.tokens given) (pairs_of (callbacks.tokens given))).
Proof.
  split.
  - intros tok Hin Htok.
    destruct (add_tokens_rejected _ ∅ tok Hin Htok) as (bad & Hrun & Hbad & Hc).
    exists bad. by repeat split.
  - intros Hall.
    destruct (add_tokens_accepted _ ∅ Hall) as (m & Hrun & Hm).
    exists m. split; [done|]. split.
    + intros k. rewrite Hm. by destruct (last_value k _).
    + by apply pairs_of_spell_tokens.
Qed.

Lemma transform_attributes_spec_witness :
  (∃ bad, callbacks.transform_attributes ["a=b,c"; "a=z"]
          = inl (InvalidFormat bad)
          ∧ contains "="%char bad = false)
  ∧ (∃ m, callbacks.transform_attributes ["a=b,c=d"; "a=z"] = inr m
          ∧ m !! "a" = Some "z" ∧ m !! "c" = Some "d").
Proof.
  split.
  - destruct (proj1 (transform_attributes_spec ["a=b,c"; "a=z"]) "c")
      as (bad & Hrun & _ & Hbad & _).
    + right. by left.
    + reflexivity.
    + by exists bad.
  - destruct (proj2 (transform_attributes_spec ["a=b,c=d"; "a=z"]))
      as (m & Hrun & Hm & _).
    + by repeat constructor.
    + exists m. split; [done|]. by rewrite !Hm.
Defined.

(** ** Invocations of [interfaces list] *)

(** With a site given, invoking the command is running its body. *)
Lemma invoke_list_with_site {response}
    (get_result : response → list Interfaces.interface)
    (api : client response) (sub : option string)
    (o : Interfaces.list_options) :
  is_None (Interfaces.opt_site_id o) = false →
  Interfaces.invoke_list get_result api sub o
  = Interfaces.call_list_body get_result api sub o.
Proof.
  intros Hsite. unfold Interfaces.invoke_list, Interfaces.requires_site.
  rewrite process_site_id_present, bind_lift_ok by done.
  by destruct o.
Qed.

(** Without one, it stops before the body, as [changes list] does. *)
Lemma invoke_list_without_site {response}
    (get_result : response → list Interfaces.interface)
    (api : client response) (sub : option string)
    (o : Interfaces.list_options) :
  Interfaces.opt_site_id o = VNone →
  Interfaces.invoke_list get_result api sub o
  = raise (MissingRequiredOption "site_id").
Proof.
  intros Hsite. unfold Interfaces.invoke_list. by rewrite Hsite.
Qed.

(** The keys come out in the order of the device numbers, not in the order
    of their spelling: 9 before 10. *)
Lemma query_output_orders_devices_as_numbers :
  trace (Interfaces.invoke_list as_is
           (finding [Interfaces.Interface 10 "eth0";
                     Interfaces.Interface 9 "eth1"])
           None (with_delimited (with_query "foo=bar" bare_list)))
  = [CallSetQuery
       (delete "delimited"
          (params_of (with_delimited (with_query "foo=bar" bare_list))));
     Echo "9:eth1,10:eth0"].
Proof. by vm_compute. Qed.

(** * Further properties of the commands *)

(** ** [changes list] *)

Lemma is_None_true (v : value) : is_None v = true ↔ v = VNone.
Proof. by destruct v. Qed.

(** X1: [changes list] calls the list verb exactly once, with [ctx.params]
    whole and no [verbose_fields], and ends as that call ends; of its
    options the body looks only at whether [id] is [None]. *)
Theorem changes_list_ends_as_the_verb {response} (ctx : context response)
    (event id limit offset resource_id resource_name site_id : value)
    (event' id' limit' offset' resource_id' resource_name' site_id' : value) :
  Changes.list_ ctx event id limit offset resource_id resource_name site_id
  = ([CallList (params ctx)
        (if is_None id then Changes.DISPLAY_FIELDS
         else Changes.VERBOSE_FIELDS) None],
     match on_list (obj ctx) (params ctx)
             (if is_None id then Changes.DISPLAY_FIELDS
              else Changes.VERBOSE_FIELDS) None with
     | Some e => inl e
     | None => inr ()
     end)
  ∧ (is_None id = is_None id' →
     Changes.list_ ctx event id limit offset resource_id resource_name
       site_id
     = Changes.list_ ctx event' id' limit' offset' resource_id'
         resource_name' site_id').
Proof.
  split.
  - unfold Changes.list_, call_list. destruct (is_None id); cbn;
      by destruct (on_list _ _ _ _).
  - intros Hid. unfold Changes.list_. by rewrite Hid.
Qed.

Lemma changes_list_ends_as_the_verb_witness :
  Changes.list_ (Context ∅ None (failing (ServerError "down")))
    VNone (VStr EmptyString) VNone VNone VNone VNone (VStr "1")
  = ([CallList ∅ Changes.VERBOSE_FIELDS None], inl (ServerError "down"))
  ∧ Changes.list_ (Context ∅ None (failing (ServerError "down")))
      VNone (VStr EmptyString) VNone VNone VNone VNone (VStr "1")
    = Changes.list_ (Context ∅ None (failing (ServerError "down")))
        (VStr "Create") (VStr "12") (VStr "5") VNone VNone VNone VNone.
Proof.
  destruct (changes_list_ends_as_the_verb
              (Context ∅ None (failing (ServerError "down")))
              VNone (VStr EmptyString) VNone VNone VNone VNone (VStr "1")
              (VStr "Create") (VStr "12") (VStr "5") VNone VNone VNone VNone)
    as [Hrun Hsame].
  split; [exact Hrun | by apply Hsame].
Defined.

(** ** [interfaces add] *)

Section add_more.
Context {response : Type}.

(** X2: the body of [add] rejects one invocation only, that with neither a
    bulk file nor a name.  Every other one, whatever the device and the
    attributes and even with an empty name, calls the add verb exactly once
    and ends as that call ends; the payload is [bulk_add] when that is a
    true value and [ctx.params] when it is not. *)
Theorem add_rejects_only_missing_name (ctx : context response)
    (attributes bulk_add device_id name : value) :
  (trace (Interfaces.add ctx attributes bulk_add device_id name) = []
   ↔ bulk_add = VNone ∧ name = VNone)
  ∧ (trace (Interfaces.add ctx attributes bulk_add device_id name) ≠ [] →
     Interfaces.add ctx attributes bulk_add device_id name
     = ([CallAdd (if truthy bulk_add then PValue bulk_add
                  else PParams (params ctx))],
        match on_add (obj ctx) (if truthy bulk_add then PValue bulk_add
                                else PParams (params ctx)) with
        | Some e => inl e
        | None => inr ()
        end)).
Proof.
  assert (Hcall : ∀ data, call_add (obj ctx) data
            = ([CallAdd data], match on_add (obj ctx) data with
                               | Some e => inl e
                               | None => inr ()
                               end)).
  { intros data. unfold call_add. cbn. by destruct (on_add _ _). }
  unfold Interfaces.add.
  destruct (is_None bulk_add) eqn:Hb; [destruct (is_None name) eqn:Hn|].
  - apply is_None_true in Hb as ->. apply is_None_true in Hn as ->.
    rewrite bind_raise. by split.
  - rewrite bind_ret, Hcall. split; [|done].
    split; [done|]. intros [_ ->]. done.
  - rewrite bind_ret, Hcall. split; [|done].
    split; [done|]. intros [-> _]. done.
Qed.

(** X3: with a bulk file that holds records, nothing else the user gave
    reaches the server: two runs on the same records and the same client
    are equal, whatever [ctx.params] and the other options are. *)
Theorem add_bulk_ignores_options (ctx ctx' : context response)
    (rs : list (gmap string string))
    (attributes device_id name attributes' device_id' name' : value) :
  rs ≠ [] → obj ctx = obj ctx' →
  Interfaces.add ctx attributes (VRecords rs) device_id name
  = Interfaces.add ctx' attributes' (VRecords rs) device_id' name'.
Proof.
  intros Hrs Hobj. rewrite !add_with_records by done. by rewrite Hobj.
Qed.

End add_more.

Lemma add_rejects_only_missing_name_witness :
  trace (Interfaces.add
           (Context (Interfaces.add_params (VDict ∅) VNone VNone
                       (VStr EmptyString))
              None (finding []))
           (VDict ∅) VNone VNone (VStr EmptyString))
  = [CallAdd (PParams (Interfaces.add_params (VDict ∅) VNone VNone
                         (VStr EmptyString)))].
Proof.
  destruct (add_rejects_only_missing_name
              (Context (Interfaces.add_params (VDict ∅) VNone VNone
                          (VStr EmptyString))
                 None (finding []))
              (VDict ∅) VNone VNone (VStr EmptyString)) as [Hnone Hsome].
  rewrite Hsome; [done|].
  intros Hempty. by destruct (proj1 Hnone Hempty).
Defined.

Lemma add_bulk_ignores_options_witness :
  Interfaces.add
    (Context (Interfaces.add_params (VDict ∅)
                (VRecords [{[ "device" := "1"; "name" := "eth0" ]}])
                (VInt 3) (VStr "eth9"))
       None (finding []))
    (VDict ∅) (VRecords [{[ "device" := "1"; "name" := "eth0" ]}])
    (VInt 3) (VStr "eth9")
  = Interfaces.add (Context ∅ None (finding []))
      VNone (VRecords [{[ "device" := "1"; "name" := "eth0" ]}]) VNone VNone.
Proof.
  apply add_bulk_ignores_options; [discriminate | reflexivity].
Defined.

(** ** [interfaces list] *)

Section list_more.
Context {response : Type} (get_result : response → list Interfaces.interface).
Context (ctx : context response).
Context (attributes delimited device description grep id limit name
         natural_key offset parent_id query site_id speed type : value).

Local Abbreviation run :=
  (Interfaces.list_ get_result ctx attributes delimited device description
     grep id limit name natural_key offset parent_id query site_id speed
     type).
Local Abbreviation data := (delete "delimited" (params ctx)).

(** X4: when a sub-command follows, the body invokes no verb and echoes
    nothing, even if a [query] was given, and returns normally. *)
Theorem list_defers_to_subcommand (sub : string) :
  is_Some (params ctx !! "delimited") →
  invoked_subcommand ctx = Some sub →
  Interfaces.list_ get_result ctx attributes delimited device description
    grep id limit name natural_key offset parent_id query site_id speed type
  = ([], inr ()).
Proof.
  intros [v Hv] Hsub. by rewrite interfaces_list_cases, Hv, Hsub.
Qed.

(** X5: if [ctx.params] has no [delimited] entry, the body raises
    [KeyError] before it invokes any verb, sub-command or not. *)
Theorem list_without_delimited_raises :
  params ctx !! "delimited" = None →
  Interfaces.list_ get_result ctx attributes delimited device description
    grep id limit name natural_key offset parent_id query site_id speed type
  = ([], inl (KeyError "delimited")).
Proof. intros Hv. by rewrite interfaces_list_cases, Hv. Qed.

(** X6: if the set query raises, the body ends with that exception after
    that one call and echoes nothing. *)
Theorem list_query_failure_propagates (e : exn) :
  is_Some (params ctx !! "delimited") →
  invoked_subcommand ctx = None →
  is_None query = false →
  on_set_query (obj ctx) data = inl e →
  run = ([CallSetQuery data], inl e).
Proof.
  intros [v Hv] Hsub Hquery Hanswer.
  by rewrite interfaces_list_cases, Hv, Hsub, Hquery, Hanswer.
Qed.

(** X7: a plain listing (no sub-command, no [query]) calls the list verb
    exactly once and ends as that call ends, with its exception if it
    raises one. *)
Theorem list_listing_ends_as_the_verb :
  is_Some (params ctx !! "delimited") →
  invoked_subcommand ctx = None →
  query = VNone →
  run = ([CallList data (Interfaces.select_fields id device name)
            (Some Interfaces.VERBOSE_FIELDS)],
         match on_list (obj ctx) data
                 (Interfaces.select_fields id device name)
                 (Some Interfaces.VERBOSE_FIELDS) with
         | Some e => inl e
         | None => inr ()
         end).
Proof.
  intros [v Hv] Hsub Hquery.
  rewrite interfaces_list_cases, Hv, Hsub, Hquery. cbn [is_None].
  unfold call_list. cbn. by destruct (on_list _ _ _ _).
Qed.

(** X8: a run with a [query] is the same whatever the other options are,
    [delimited] apart: [id], [device] and [name] select no table for it,
    and no table reaches the client. *)
Theorem list_query_ignores_other_options
    (attributes' device' description' grep' id' limit' name' natural_key'
     offset' parent_id' site_id' speed' type' : value) :
  is_None query = false →
  run = Interfaces.list_ get_result ctx attributes' delimited device'
          description' grep' id' limit' name' natural_key' offset'
          parent_id' query site_id' speed' type'
  ∧ ∀ d df vf, CallList d df vf ∉ trace run.
Proof.
  intros Hquery. split.
  - rewrite !interfaces_list_cases. by rewrite Hquery.
  - intros d df vf. rewrite interfaces_list_trace.
    destruct (params ctx !! "delimited"); [|apply not_elem_of_nil].
    destruct (invoked_subcommand ctx); [apply not_elem_of_nil|].
    rewrite Hquery.
    destruct (on_set_query _ _);
      rewrite ?not_elem_of_cons; repeat split; try discriminate;
      apply not_elem_of_nil.
Qed.

(** X12: a query that finds nothing still echoes: one empty message. *)
Theorem list_query_nothing_found (results : response) :
  is_Some (params ctx !! "delimited") →
  invoked_subcommand ctx = None →
  is_None query = false →
  on_set_query (obj ctx) data = inr results →
  get_result results = [] →
  run = ([CallSetQuery data; Echo EmptyString], inr ()).
Proof.
  intros [v Hv] Hsub Hquery Hanswer Hnone.
  rewrite interfaces_list_cases, Hv, Hsub, Hquery, Hanswer, Hnone.
  by destruct (truthy delimited).
Qed.

End list_more.

(** ** The keys of a query *)

Lemma sorted_Permutation (keys keys' : list (Z * string)) :
  keys ≡ₚ keys' → Interfaces.sorted keys = Interfaces.sorted keys'.
Proof.
  intros Hperm.
  destruct (sorted_spec keys) as (Hs & Hp & _).
  destruct (sorted_spec keys') as (_ & _ & Hunique).
  apply Hunique; [done|]. by rewrite Hp.
Qed.

(** X9: the output of a query does not depend on the order in which the
    server returns the objects: two clients whose answers hold the same
    objects in any order give the same run. *)
Theorem list_query_order_independent {response}
    (get_result : response → list Interfaces.interface)
    (p : gmap string value) (api api' : client response)
    (results results' : response)
    (attributes delimited device description grep id limit name natural_key
     offset parent_id query site_id speed type : value) :
  is_None query = false →
  on_set_query api (delete "delimited" p) = inr results →
  on_set_query api' (delete "delimited" p) = inr results' →
  get_result results ≡ₚ get_result results' →
  Interfaces.list_ get_result (Context p None api) attributes delimited
    device description grep id limit name natural_key offset parent_id
    query site_id speed type
  = Interfaces.list_ get_result (Context p None api') attributes delimited
      device description grep id limit name natural_key offset parent_id
      query site_id speed type.
Proof.
  intros Hquery Hanswer Hanswer' Hperm.
  rewrite !interfaces_list_cases. cbn [params invoked_subcommand obj].
  destruct (p !! "delimited"); [|done].
  rewrite Hquery, Hanswer, Hanswer'.
  by rewrite (sorted_Permutation _ _ (fmap_Permutation _ _ _ Hperm)).
Qed.

Lemma pretty_N_go_keeps_colons (x : N) :
  ∀ s, contains ":"%char (pretty_N_go x s) = contains ":"%char s.
Proof.
  induction (N.lt_wf_0 x) as [x _ IH]; intros s.
  destruct (decide (x = 0)%N) as [->|Hx]; [done|].
  rewrite pretty_N_go_step by lia.
  rewrite IH by (apply N.div_lt; lia).
  cbn [contains]. unfold pretty_N_char. by repeat case_match.
Qed.

Lemma pretty_Z_no_colon (z : Z) : contains ":"%char (pretty z) = false.
Proof.
  assert (Hpos : ∀ q : positive, contains ":"%char (pretty q) = false).
  { intros q. unfold pretty, pretty_positive, pretty, pretty_N.
    case_decide; [done|]. by rewrite pretty_N_go_keeps_colons. }
  destruct z as [|q|q]; [done|apply Hpos|].
  unfold pretty, pretty_Z. cbn. apply Hpos.
Qed.

Lemma append_empty (s : string) : EmptyString +:+ s = s.
Proof. done. Qed.

Lemma append_String (c : ascii) (a b : string) :
  String c a +:+ b = String c (a +:+ b).
Proof. done. Qed.

Lemma cut_at_append (c : ascii) (k v : string) :
  contains c k = false → cut_at c (k +:+ String c v) = Some (k, v).
Proof.
  induction k as [|c' k IH];
    rewrite ?append_empty, ?append_String; cbn [cut_at contains].
  - by rewrite Ascii.eqb_refl.
  - intros [Hc Hk]%orb_false_elim. by rewrite Hc, IH.
Qed.

(** The composite key can be read back: cut at its first colon it gives
    the device number as printed and the name, colons in the name
    included. *)
Lemma composite_key_cut (obj : Z * string) :
  cut_at ":"%char (Interfaces.composite_key obj) = Some (pretty obj.1, obj.2).
Proof.
  unfold Interfaces.composite_key.
  change (":" +:+ obj.2) with (String ":"%char obj.2).
  apply cut_at_append, pretty_Z_no_colon.
Qed.

Global Instance composite_key_inj : Inj (=) (=) Interfaces.composite_key.
Proof.
  intros obj obj' Hkey.
  pose proof (composite_key_cut obj) as Hcut.
  rewrite Hkey, composite_key_cut in Hcut.
  destruct obj as [d n], obj' as [d' n']. cbn in Hcut.
  injection Hcut as Hd Hn. apply (inj pretty) in Hd. congruence.
Qed.

(** X10: two different (device, name) pairs never print as the same
    composite key, even when names contain colons. *)
Theorem composite_key_distinct (obj obj' : Z * string) :
  obj ≠ obj' → Interfaces.composite_key obj ≠ Interfaces.composite_key obj'.
Proof.
  intros Hne Hkey. by apply Hne, (inj Interfaces.composite_key).
Qed.

(** X11: the keys a query echoes repeat exactly when the objects returned
    repeat a (device, name) pair: the message joins the composite keys of
    the sorted pairs, and those keys are pairwise distinct if and only if
    the pairs are. *)
Theorem list_query_repeats_only_records {response}
    (get_result : response → list Interfaces.interface)
    (ctx : context response) (results : response)
    (attributes delimited device description grep id limit name natural_key
     offset parent_id query site_id speed type : value) :
  is_Some (params ctx !! "delimited") →
  invoked_subcommand ctx = None →
  is_None query = false →
  on_set_query (obj ctx) (delete "delimited" (params ctx)) = inr results →
  Interfaces.list_ get_result ctx attributes delimited device description
    grep id limit name natural_key offset parent_id query site_id speed
    type
  = ([CallSetQuery (delete "delimited" (params ctx));
      Echo (join (if truthy delimited then "," else newline)
              (Interfaces.composite_key <$>
                 Interfaces.sorted
                   ((λ i, (Interfaces.i_device i, Interfaces.i_name i))
                      <$> get_result results)))],
     inr ())
  ∧ (NoDup (Interfaces.composite_key <$>
              Interfaces.sorted
                ((λ i, (Interfaces.i_device i, Interfaces.i_name i))
                   <$> get_result results))
     ↔ NoDup ((λ i, (Interfaces.i_device i, Interfaces.i_name i))
                <$> get_result results)).
Proof.
  intros [v Hv] Hsub Hquery Hanswer.
  rewrite interfaces_list_cases, Hv, Hsub, Hquery, Hanswer.
  split; [reflexivity|].
  rewrite (NoDup_fmap Interfaces.composite_key).
  unfold Interfaces.sorted. by rewrite merge_sort_Permutation.
Qed.

(** ** Reading the output back *)

Lemma split_on_whole (sep : ascii) (s : string) :
  contains sep s = false → split_on sep s = [s].
Proof.
  induction s as [|c s IH]; cbn [split_on contains]; [done|].
  intros [Hc Hs]%orb_false_elim. by rewrite Hc, IH.
Qed.

Lemma split_on_append (sep : ascii) (a b : string) :
  contains sep a = false →
  split_on sep (a +:+ String sep b) = a :: split_on sep b.
Proof.
  induction a as [|c a IH];
    rewrite ?append_empty, ?append_String; cbn [split_on contains].
  - by rewrite Ascii.eqb_refl.
  - intros [Hc Ha]%orb_false_elim. by rewrite Hc, IH.
Qed.

(** X13: a message made by joining at least one word with a one-character
    joiner splits back at that character into the same words, provided no
    word holds the character. *)
Theorem join_split_on (sep : ascii) (words : list string) :
  words ≠ [] →
  Forall (λ w, contains sep w = false) words →
  split_on sep (join (String sep EmptyString) words) = words.
Proof.
  intros Hne Hall. unfold join.
  induction Hall as [|w words Hw Hall IH]; [done|].
  destruct words as [|w' words].
  - cbn. by apply split_on_whole.
  - change (String.concat (String sep EmptyString) (w :: w' :: words))
      with (w +:+ String sep
              (String.concat (String sep EmptyString) (w' :: words))).
    rewrite split_on_append by done. f_equal. by apply IH.
Qed.

(** ** Concrete runs of the further properties *)

Lemma list_defers_to_subcommand_witness :
  Interfaces.call_list_body as_is (finding [Interfaces.Interface 1 "eth0"])
    (Some "addresses") (with_query "foo=bar" bare_list)
  = ([], inr ()).
Proof.
  unfold Interfaces.call_list_body.
  apply (list_defers_to_subcommand _ _ _ _ _ _ _ _ _ _ _ _ _ _ _ _ _
           "addresses");
    [apply (bare_list_has_delimited (with_query "foo=bar" bare_list))
    | reflexivity].
Defined.

Lemma list_without_delimited_raises_witness :
  Interfaces.list_ as_is (Context ∅ None (finding []))
    (VTuple []) (VBool false) VNone VNone (VBool false) VNone VNone VNone
    (VBool false) VNone VNone VNone (VStr "1") VNone VNone
  = ([], inl (KeyError "delimited")).
Proof. apply list_without_delimited_raises. reflexivity. Defined.

Lemma list_query_failure_propagates_witness :
  Interfaces.call_list_body as_is (failing (ServerError "down")) None
    (with_query "foo=bar" bare_list)
  = ([CallSetQuery
        (delete "delimited" (params_of (with_query "foo=bar" bare_list)))],
     inl (ServerError "down")).
Proof.
  unfold Interfaces.call_list_body.
  apply (list_query_failure_propagates as_is
           (Context (params_of (with_query "foo=bar" bare_list)) None
              (failing (ServerError "down"))));
    [apply bare_list_has_delimited | reflexivity..].
Defined.

Lemma list_listing_ends_as_the_verb_witness :
  Interfaces.call_list_body as_is (failing (ServerError "down")) None
    bare_list
  = ([CallList (delete "delimited" (params_of bare_list))
        Interfaces.DISPLAY_FIELDS (Some Interfaces.VERBOSE_FIELDS)],
     inl (ServerError "down")).
Proof.
  unfold Interfaces.call_list_body.
  apply (list_listing_ends_as_the_verb as_is
           (Context (params_of bare_list) None
              (failing (ServerError "down"))));
    [apply bare_list_has_delimited | reflexivity..].
Defined.

Lemma list_query_ignores_other_options_witness :
  Interfaces.call_list_body as_is (finding [Interfaces.Interface 1 "eth0"])
    None (with_query "foo=bar" bare_list)
  = Interfaces.list_ as_is
      (Context (params_of (with_query "foo=bar" bare_list)) None
         (finding [Interfaces.Interface 1 "eth0"]))
      VNone (VBool false) (VInt 5) VNone VNone (VInt 7) VNone (VStr "eth0")
      VNone VNone VNone (VStr "foo=bar") VNone VNone VNone.
Proof.
  unfold Interfaces.call_list_body.
  apply (list_query_ignores_other_options as_is
           (Context (params_of (with_query "foo=bar" bare_list)) None
              (finding [Interfaces.Interface 1 "eth0"]))).
  reflexivity.
Defined.

Lemma list_query_nothing_found_witness :
  Interfaces.call_list_body as_is (finding []) None
    (with_delimited (with_query "foo=bar" bare_list))
  = ([CallSetQuery
        (delete "delimited"
           (params_of (with_delimited (with_query "foo=bar" bare_list))));
      Echo EmptyString],
     inr ()).
Proof.
  unfold Interfaces.call_list_body.
  apply (list_query_nothing_found as_is
           (Context
              (params_of (with_delimited (with_query "foo=bar" bare_list)))
              None (finding [])) _ _ _ _ _ _ _ _ _ _ _ _ _ _ _ []);
    [apply bare_list_has_delimited | reflexivity..].
Defined.

Lemma list_query_order_independent_witness :
  Interfaces.call_list_body as_is
    (finding [Interfaces.Interface 10 "eth0"; Interfaces.Interface 9 "eth1"])
    None (with_query "foo=bar" bare_list)
  = Interfaces.call_list_body as_is
      (finding [Interfaces.Interface 9 "eth1";
                Interfaces.Interface 10 "eth0"])
      None (with_query "foo=bar" bare_list).
Proof.
  unfold Interfaces.call_list_body.
  apply (list_query_order_independent as_is
           (params_of (with_query "foo=bar" bare_list))
           (finding [Interfaces.Interface 10 "eth0";
                     Interfaces.Interface 9 "eth1"])
           (finding [Interfaces.Interface 9 "eth1";
                     Interfaces.Interface 10 "eth0"])
           [Interfaces.Interface 10 "eth0"; Interfaces.Interface 9 "eth1"]
           [Interfaces.Interface 9 "eth1"; Interfaces.Interface 10 "eth0"]);
    [reflexivity.. | apply Permutation_swap].
Defined.

Lemma composite_key_distinct_witness :
  Interfaces.composite_key (1, "1:eth0")
  ≠ Interfaces.composite_key (11, "eth0")
  ∧ Interfaces.composite_key (1, "1:eth0") = "1:1:eth0".
Proof.
  split; [|reflexivity].
  apply composite_key_distinct. discriminate.
Defined.

Lemma list_query_repeats_only_records_witness :
  Interfaces.call_list_body as_is
    (finding [Interfaces.Interface 10 "eth0"; Interfaces.Interface 9 "eth1"])
    None (with_query "foo=bar" bare_list)
  = ([CallSetQuery
        (delete "delimited" (params_of (with_query "foo=bar" bare_list)));
      Echo (join newline
              (Interfaces.composite_key <$>
                 Interfaces.sorted [(10, "eth0"); (9, "eth1")]))],
     inr ())
  ∧ (NoDup (Interfaces.composite_key <$>
              Interfaces.sorted [(10, "eth0"); (9, "eth1")])
     ↔ NoDup [(10, "eth0"); (9, "eth1")]).
Proof.
  unfold Interfaces.call_list_body.
  apply (list_query_repeats_only_records as_is
           (Context (params_of (with_query "foo=bar" bare_list)) None
              (finding [Interfaces.Interface 10 "eth0";
                        Interfaces.Interface 9 "eth1"]))
           [Interfaces.Interface 10 "eth0"; Interfaces.Interface 9 "eth1"]);
    [apply bare_list_has_delimited | reflexivity..].
Defined.

Lemma join_split_on_witness :
  split_on ","%char (join "," ["9:eth1"; "10:eth0"]) = ["9:eth1"; "10:eth0"].
Proof.
  apply (join_split_on ","%char ["9:eth1"; "10:eth0"]);
    [discriminate | by repeat constructor].
Defined.

(** ** [interfaces add] from the command line *)

(** Had [add] named its parameter after the option, the call would bind. *)
Lemma add_keywords_if_named_device (attributes bulk_add device name : value) :
  bind_keywords ["attributes"; "bulk_add"; "device"; "name"]
    (Interfaces.add_params attributes bulk_add device name)
  = inr [attributes; bulk_add; device; name].
Proof. by vm_compute. Qed.

(** The keyword call of [list] binds: its parameters are its options. *)
Lemma list_keywords_bind
    (attributes delimited device description grep id limit name natural_key
     offset parent_id query site_id speed type : value) :
  bind_keywords Interfaces.list_parameters
    (Interfaces.list_params attributes delimited device description grep id
       limit name natural_key offset parent_id query site_id speed type)
  = inr [attributes; delimited; device; description; grep; id; limit; name;
         natural_key; offset; parent_id; query; site_id; speed; type].
Proof. by vm_compute. Qed.

Lemma add_keywords_do_not_bind (attributes bulk_add device name : value) :
  bind_keywords Interfaces.add_parameters
    (Interfaces.add_params attributes bulk_add device name)
  = inl (TypeError "device").
Proof. by vm_compute. Qed.

(** C5: the body of [add] does hold the check on [name], but no command
    line reaches it.  click passes the option [--device] as the keyword
    [device] and [add] has no such parameter, so every invocation, with or
    without a bulk file and a name, ends in a [TypeError] before the body
    runs: no usage error is raised and no verb is invoked. *)
Theorem add_command_raises_type_error {response} (api : client response)
    (attributes bulk_add device name : value) :
  Interfaces.invoke_add api attributes bulk_add device name
  = ([], inl (TypeError "device"))
  ∧ classify (TypeError "device") ≠ Usage
  ∧ Interfaces.invoke_add api attributes bulk_add device name
    ≠ Interfaces.add
        (Context (Interfaces.add_params attributes VNone device VNone)
           None api)
        attributes VNone device VNone.
Proof.
  assert (Hrun : Interfaces.invoke_add api attributes bulk_add device name
                 = ([], inl (TypeError "device"))).
  { unfold Interfaces.invoke_add. cbn [params].
    by rewrite add_keywords_do_not_bind. }
  split; [done|]. split; [discriminate|].
  rewrite Hrun. discriminate.
Qed.
